(** * MavlinkStreamAvesaidStatus: the AVESAID_STATUS telemetry stream

    A shallow embedding of [src/modules/mavlink/streams/AVESAID_STATUS.hpp].
    The stream owns one uORB subscription to the [avesaid_status] topic and,
    when polled by the MAVLink scheduler, transcodes the latest record into
    one [mavlink_avesaid_status_t] message.

    Methods that mutate [*this] (or objects reached through it) are written
    in state-passing style: they take the stream object and return the
    result together with the stream object after the call. *)

From Stdlib Require Import ZArith List String Bool Lia.
Import ListNotations.
Local Open Scope Z_scope.

(** ** Machine integers *)

(** Conversion of an [int] expression to the [unsigned] return type. *)
Definition to_unsigned (z : Z) : Z := z mod 2 ^ 32.

(** Conversion of an [int] expression to the [uint16_t] return type. *)
Definition to_uint16 (z : Z) : Z := z mod 2 ^ 16.

(** ** The uORB record, [avesaid_status_s] *)

Module orb.

(** Modelled from the spec: the generated header [uORB/topics/avesaid_status.h]
    is not among the sources. The spec's StateRecord is "a monotonic timestamp
    and a small set of boolean/enum status flags"; the fields are the six
    the stream reads. *)
Record avesaid_status_s : Type := {
  timestamp : Z;
  flag_mode_attachment_enabled : bool;
  flag_mode_partial_attachment_enabled : bool;
  flag_magnet_enabled : bool;
  flag_height_source_baro_enabled : bool;
  flag_height_source_slam_enabled : bool
}.

(** [avesaid_status_s avesaid_status{}]: value-initialisation. *)
Definition zero : avesaid_status_s :=
  {| timestamp := 0;
     flag_mode_attachment_enabled := false;
     flag_mode_partial_attachment_enabled := false;
     flag_magnet_enabled := false;
     flag_height_source_baro_enabled := false;
     flag_height_source_slam_enabled := false |}.

End orb.

(** ** The wire message, [mavlink_avesaid_status_t] *)

Module mav.

(** Modelled from the spec: the generated MAVLink header that declares
    [mavlink_avesaid_status_t] is not among the sources. The struct has the
    six fields the stream assigns, of the types of the record's fields
    ("maps each StateRecord field verbatim into the corresponding WireMessage
    field"), and [other_fields] stands for whatever further fields the schema
    declares, each as its raw integer value. *)
Record mavlink_avesaid_status_t : Type := {
  timestamp : Z;
  flag_mode_attachment_enabled : bool;
  flag_mode_partial_attachment_enabled : bool;
  flag_magnet_enabled : bool;
  flag_height_source_baro_enabled : bool;
  flag_height_source_slam_enabled : bool;
  other_fields : list Z
}.

(** [mavlink_avesaid_status_t msg{}]: value-initialisation zeroes every
    field, the [n_other] further ones included. *)
Definition zero (n_other : nat) : mavlink_avesaid_status_t :=
  {| timestamp := 0;
     flag_mode_attachment_enabled := false;
     flag_mode_partial_attachment_enabled := false;
     flag_magnet_enabled := false;
     flag_height_source_baro_enabled := false;
     flag_height_source_slam_enabled := false;
     other_fields := repeat 0 n_other |}.

(** Field assignments [msg.f = v]. *)
Definition set_timestamp (v : Z) (m : mavlink_avesaid_status_t) :=
  {| timestamp := v;
     flag_mode_attachment_enabled := flag_mode_attachment_enabled m;
     flag_mode_partial_attachment_enabled := flag_mode_partial_attachment_enabled m;
     flag_magnet_enabled := flag_magnet_enabled m;
     flag_height_source_baro_enabled := flag_height_source_baro_enabled m;
     flag_height_source_slam_enabled := flag_height_source_slam_enabled m;
     other_fields := other_fields m |}.

Definition set_flag_mode_attachment_enabled (v : bool) (m : mavlink_avesaid_status_t) :=
  {| timestamp := timestamp m;
     flag_mode_attachment_enabled := v;
     flag_mode_partial_attachment_enabled := flag_mode_partial_attachment_enabled m;
     flag_magnet_enabled := flag_magnet_enabled m;
     flag_height_source_baro_enabled := flag_height_source_baro_enabled m;
     flag_height_source_slam_enabled := flag_height_source_slam_enabled m;
     other_fields := other_fields m |}.

Definition set_flag_mode_partial_attachment_enabled (v : bool) (m : mavlink_avesaid_status_t) :=
  {| timestamp := timestamp m;
     flag_mode_attachment_enabled := flag_mode_attachment_enabled m;
     flag_mode_partial_attachment_enabled := v;
     flag_magnet_enabled := flag_magnet_enabled m;
     flag_height_source_baro_enabled := flag_height_source_baro_enabled m;
     flag_height_source_slam_enabled := flag_height_source_slam_enabled m;
     other_fields := other_fields m |}.

Definition set_flag_magnet_enabled (v : bool) (m : mavlink_avesaid_status_t) :=
  {| timestamp := timestamp m;
     flag_mode_attachment_enabled := flag_mode_attachment_enabled m;
     flag_mode_partial_attachment_enabled := flag_mode_partial_attachment_enabled m;
     flag_magnet_enabled := v;
     flag_height_source_baro_enabled := flag_height_source_baro_enabled m;
     flag_height_source_slam_enabled := flag_height_source_slam_enabled m;
     other_fields := other_fields m |}.

Definition set_flag_height_source_baro_enabled (v : bool) (m : mavlink_avesaid_status_t) :=
  {| timestamp := timestamp m;
     flag_mode_attachment_enabled := flag_mode_attachment_enabled m;
     flag_mode_partial_attachment_enabled := flag_mode_partial_attachment_enabled m;
     flag_magnet_enabled := flag_magnet_enabled m;
     flag_height_source_baro_enabled := v;
     flag_height_source_slam_enabled := flag_height_source_slam_enabled m;
     other_fields := other_fields m |}.

Definition set_flag_height_source_slam_enabled (v : bool) (m : mavlink_avesaid_status_t) :=
  {| timestamp := timestamp m;
     flag_mode_attachment_enabled := flag_mode_attachment_enabled m;
     flag_mode_partial_attachment_enabled := flag_mode_partial_attachment_enabled m;
     flag_magnet_enabled := flag_magnet_enabled m;
     flag_height_source_baro_enabled := flag_height_source_baro_enabled m;
     flag_height_source_slam_enabled := v;
     other_fields := other_fields m |}.

End mav.

(** ** The state topic reader, [uORB::Subscription] *)

(** Modelled from the spec: [uORB::Subscription] is not among the sources.
    Following the spec's design note, the reader is "a single-slot cell
    holding the most recent published value plus a freshness flag,
    overwritten atomically by the producer and consumed-and-cleared by the
    reader"; [sub_advertised] records "whether any publisher has ever
    attached to this topic". *)
Record Subscription : Type := {
  sub_advertised : bool;
  sub_latest : orb.avesaid_status_s;
  sub_fresh : bool
}.

(** Modelled from the spec: [Subscription::advertised()], which "reports
    whether any publisher has ever attached to this topic, independent of
    freshness". *)
Definition advertised (s : Subscription) : bool * Subscription :=
  (sub_advertised s, s).

(** Modelled from the spec: [Subscription::update(void *dst)], which "fails
    silently returning false if no value newer than the last one retrieved
    exists; otherwise copies the latest value into [out] and returns true
    exactly once per fresh publish". [dst] is the caller's buffer before the
    call; the second component is the buffer after it. *)
Definition update (s : Subscription) (dst : orb.avesaid_status_s)
  : bool * orb.avesaid_status_s * Subscription :=
  if sub_fresh s
  then (true, sub_latest s,
        {| sub_advertised := sub_advertised s;
           sub_latest := sub_latest s;
           sub_fresh := false |})
  else (false, dst, s).

(** Modelled from the spec: a publisher attaching to the topic (the
    publishing module is not among the sources). *)
Definition advertise (s : Subscription) : Subscription :=
  {| sub_advertised := true;
     sub_latest := sub_latest s;
     sub_fresh := sub_fresh s |}.

(** Modelled from the spec: one publish on the topic, "each publish replaces
    the previous value atomically". Only an attached publisher publishes, so
    the topic is advertised afterwards. *)
Definition publish (r : orb.avesaid_status_s) (s : Subscription) : Subscription :=
  {| sub_advertised := true;
     sub_latest := r;
     sub_fresh := true |}.

(** ** The MAVLink instance and its channel *)

(** Modelled from the spec: the [Mavlink] class and the generated
    [mavlink_msg_avesaid_status_send_struct] are not among the sources. The
    instance has a channel number, and [sent] is the sequence of messages
    handed to the transport so far, oldest first, each with the channel it
    was written to ("one framed message per successful emit"; the transport
    "is always ready to accept a write"). *)
Record Mavlink : Type := {
  get_channel : Z;
  sent : list (Z * mav.mavlink_avesaid_status_t)
}.

Definition mavlink_msg_avesaid_status_send_struct
    (chan : Z) (msg : mav.mavlink_avesaid_status_t) (m : Mavlink) : Mavlink :=
  {| get_channel := get_channel m;
     sent := sent m ++ [(chan, msg)] |}.

(** ** The stream class *)

Record MavlinkStreamAvesaidStatus : Type := {
  _mavlink : Mavlink;
  _avesaid_status_sub : Subscription
}.

(** The constructor: [MavlinkStream(mavlink)] keeps the instance, and the
    default member initialiser binds the subscription to the global
    [avesaid_status] topic. The topic lives outside the stream and can be in
    any state by then, already advertised or holding a record nobody has
    read: [topic] is the reader's view of it at that moment. *)
Definition new_instance (mavlink : Mavlink) (topic : Subscription)
  : MavlinkStreamAvesaidStatus :=
  {| _mavlink := mavlink;
     _avesaid_status_sub := topic |}.

Definition get_name_static : string := "AVESAID_STATUS".

(** ** Concrete data for the scenarios *)

Module Scenario.

(** A MAVLink instance on channel 0 that has written nothing yet. *)
Definition link0 : Mavlink := {| get_channel := 0; sent := [] |}.

(** The topic before any publisher has attached to it. *)
Definition no_publisher : Subscription :=
  {| sub_advertised := false; sub_latest := orb.zero; sub_fresh := false |}.

Definition record (ts : Z) (a b c d e : bool) : orb.avesaid_status_s :=
  {| orb.timestamp := ts;
     orb.flag_mode_attachment_enabled := a;
     orb.flag_mode_partial_attachment_enabled := b;
     orb.flag_magnet_enabled := c;
     orb.flag_height_source_baro_enabled := d;
     orb.flag_height_source_slam_enabled := e |}.

(** The record of the second end-to-end scenario. *)
Definition tftft : orb.avesaid_status_s := record 1000 true false true false true.

(** Five records published in a row, the third scenario. *)
Definition five : list orb.avesaid_status_s :=
  [ record 1 true true true true true;
    record 2 false true false true false;
    record 3 true true false false false;
    record 4 false false false false true;
    record 5 false false true true false ].

(** Values the missing macros could have: an id that fits sixteen bits, a
    payload of an eight-byte timestamp and five one-byte flags, and the
    twelve framing bytes of MAVLink 2. *)
Definition msg_id : Z := 229.
Definition msg_len : Z := 13.
Definition non_payload : Z := 12.

End Scenario.

Section Stream.

(** The macros of the generated MAVLink headers, which are not among the
    sources: message id, payload length, framing overhead; and the number of
    fields of the message struct beyond the six the stream assigns. *)
Variable MAVLINK_MSG_ID_AVESAID_STATUS : Z.
Variable MAVLINK_MSG_ID_AVESAID_STATUS_LEN : Z.
Variable MAVLINK_NUM_NON_PAYLOAD_BYTES : Z.
Variable n_other_fields : nat.

Definition get_id_static : Z := to_uint16 MAVLINK_MSG_ID_AVESAID_STATUS.

Definition get_name (this : MavlinkStreamAvesaidStatus) : string :=
  get_name_static.

Definition get_id (this : MavlinkStreamAvesaidStatus) : Z :=
  get_id_static.

Definition get_size (this : MavlinkStreamAvesaidStatus)
  : Z * MavlinkStreamAvesaidStatus :=
  let '(adv, sub) := advertised (_avesaid_status_sub this) in
  (to_unsigned
     (if adv
      then MAVLINK_MSG_ID_AVESAID_STATUS_LEN + MAVLINK_NUM_NON_PAYLOAD_BYTES
      else 0),
   {| _mavlink := _mavlink this; _avesaid_status_sub := sub |}).

Definition send (this : MavlinkStreamAvesaidStatus)
  : bool * MavlinkStreamAvesaidStatus :=
  let avesaid_status := orb.zero in
  let '(updated, avesaid_status, sub) :=
    update (_avesaid_status_sub this) avesaid_status in
  if updated then
    let msg := mav.zero n_other_fields in
    let msg := mav.set_timestamp (orb.timestamp avesaid_status) msg in
    let msg := mav.set_flag_mode_attachment_enabled
                 (orb.flag_mode_attachment_enabled avesaid_status) msg in
    let msg := mav.set_flag_mode_partial_attachment_enabled
                 (orb.flag_mode_partial_attachment_enabled avesaid_status) msg in
    let msg := mav.set_flag_magnet_enabled
                 (orb.flag_magnet_enabled avesaid_status) msg in
    let msg := mav.set_flag_height_source_baro_enabled
                 (orb.flag_height_source_baro_enabled avesaid_status) msg in
    let msg := mav.set_flag_height_source_slam_enabled
                 (orb.flag_height_source_slam_enabled avesaid_status) msg in
    let mavlink :=
      mavlink_msg_avesaid_status_send_struct
        (get_channel (_mavlink this)) msg (_mavlink this) in
    (true, {| _mavlink := mavlink; _avesaid_status_sub := sub |})
  else
    (false, {| _mavlink := _mavlink this; _avesaid_status_sub := sub |}).

(** *** The stream in use

    What can happen to a stream instance between construction and
    destruction: a publisher attaches to the topic or publishes a record
    (driven by the publishing module), and the MAVLink scheduler calls one of
    the four virtual methods. *)
Inductive event : Type :=
| Advertise
| Publish (r : orb.avesaid_status_s)
| CallSend
| CallGetSize
| CallGetName
| CallGetId.

Definition step (e : event) (this : MavlinkStreamAvesaidStatus)
  : MavlinkStreamAvesaidStatus :=
  match e with
  | Advertise =>
      {| _mavlink := _mavlink this;
         _avesaid_status_sub := advertise (_avesaid_status_sub this) |}
  | Publish r =>
      {| _mavlink := _mavlink this;
         _avesaid_status_sub := publish r (_avesaid_status_sub this) |}
  | CallSend => snd (send this)
  | CallGetSize => snd (get_size this)
  | CallGetName => let _ := get_name this in this
  | CallGetId => let _ := get_id this in this
  end.

Definition run (evs : list event) (this : MavlinkStreamAvesaidStatus)
  : MavlinkStreamAvesaidStatus :=
  fold_left (fun s e => step e s) evs this.

(** [n] consecutive calls of [send()], with the results in call order. *)
Fixpoint send_n (n : nat) (this : MavlinkStreamAvesaidStatus)
  : list bool * MavlinkStreamAvesaidStatus :=
  match n with
  | O => ([], this)
  | S k =>
      let '(b, this1) := send this in
      let '(bs, this2) := send_n k this1 in
      (b :: bs, this2)
  end.

(** The events that attach a publisher to the topic. *)
Definition attaches (e : event) : bool :=
  match e with
  | Advertise | Publish _ => true
  | _ => false
  end.

(** The calls that only ask the stream about itself. *)
Definition is_query (e : event) : bool :=
  match e with
  | CallGetSize | CallGetName | CallGetId => true
  | _ => false
  end.

(** The wire image of a record: the six fields carried over, every other
    field of the schema zero. Used to state what [send] writes. *)
Definition wire_of (r : orb.avesaid_status_s) : mav.mavlink_avesaid_status_t :=
  {| mav.timestamp := orb.timestamp r;
     mav.flag_mode_attachment_enabled := orb.flag_mode_attachment_enabled r;
     mav.flag_mode_partial_attachment_enabled :=
       orb.flag_mode_partial_attachment_enabled r;
     mav.flag_magnet_enabled := orb.flag_magnet_enabled r;
     mav.flag_height_source_baro_enabled := orb.flag_height_source_baro_enabled r;
     mav.flag_height_source_slam_enabled := orb.flag_height_source_slam_enabled r;
     mav.other_fields := repeat 0 n_other_fields |}.

(** The messages a stream has handed to the transport so far. *)
Definition written (this : MavlinkStreamAvesaidStatus)
  : list (Z * mav.mavlink_avesaid_status_t) :=
  sent (_mavlink this).

(** Whether the subscription holds a value newer than the last one
    retrieved. *)
Definition fresh (this : MavlinkStreamAvesaidStatus) : bool :=
  sub_fresh (_avesaid_status_sub this).

(** Every field of a wire message beyond the six assigned ones is zero. *)
Definition other_fields_zero (msg : mav.mavlink_avesaid_status_t) : Prop :=
  Forall (fun v => v = 0) (mav.other_fields msg).

(** The value [get_size()] reports for an advertised topic. *)
Definition wire_size : Z :=
  MAVLINK_MSG_ID_AVESAID_STATUS_LEN + MAVLINK_NUM_NON_PAYLOAD_BYTES.

(** *** Histories

    What a history of events asks of the stream, read off the events alone;
    the theorems on histories relate these to what [run] does. *)

Definition is_publish (e : event) : bool :=
  match e with
  | Publish _ => true
  | _ => false
  end.

Definition is_send (e : event) : bool :=
  match e with
  | CallSend => true
  | _ => false
  end.

Definition is_advertise (e : event) : bool :=
  match e with
  | Advertise => true
  | _ => false
  end.

(** A history with the events of one kind taken out. *)
Definition without (kind : event -> bool) (evs : list event) : list event :=
  filter (fun e => negb (kind e)) evs.

(** The records published in a history, oldest first. *)
Definition published (evs : list event) : list orb.avesaid_status_s :=
  flat_map (fun e => match e with Publish r => [r] | _ => [] end) evs.

(** The value the subscription would hand to the next [update], if any. *)
Definition pending (this : MavlinkStreamAvesaidStatus)
  : option orb.avesaid_status_s :=
  if fresh this then Some (sub_latest (_avesaid_status_sub this)) else None.

(** The records a history delivers when [pend] is pending at its start: at
    each [send()] call the record published last since the call before it,
    if there is one. *)
Fixpoint delivered (evs : list event) (pend : option orb.avesaid_status_s)
  : list orb.avesaid_status_s :=
  match evs with
  | [] => []
  | Publish r :: evs' => delivered evs' (Some r)
  | CallSend :: evs' =>
      match pend with
      | Some r => r :: delivered evs' None
      | None => delivered evs' None
      end
  | _ :: evs' => delivered evs' pend
  end.

(** Records as they appear on the stream's channel. *)
Definition on_wire (this : MavlinkStreamAvesaidStatus)
    (rs : list orb.avesaid_status_s)
  : list (Z * mav.mavlink_avesaid_status_t) :=
  map (fun r => (get_channel (_mavlink this), wire_of r)) rs.

(** The scheduler polling once after every publish. *)
Definition lockstep (rs : list orb.avesaid_status_s) : list event :=
  flat_map (fun r => [Publish r; CallSend]) rs.

(** The return values of the [send()] calls of a history, in call order. *)
Fixpoint send_results (evs : list event) (this : MavlinkStreamAvesaidStatus)
  : list bool :=
  match evs with
  | [] => []
  | CallSend :: evs' => fst (send this) :: send_results evs' (snd (send this))
  | e :: evs' => send_results evs' (step e this)
  end.

(** * Properties *)

(** ** Basic facts about [send], [get_size] and the subscription *)

Lemma stream_eta (this : MavlinkStreamAvesaidStatus) :
  {| _mavlink := _mavlink this;
     _avesaid_status_sub := _avesaid_status_sub this |} = this.
Proof. now destruct this. Qed.

Lemma send_stale (this : MavlinkStreamAvesaidStatus) :
  fresh this = false -> send this = (false, this).
Proof.
  unfold fresh. intros Hstale. unfold send, update. rewrite Hstale.
  now rewrite stream_eta.
Qed.

Lemma send_fresh (this : MavlinkStreamAvesaidStatus) :
  fresh this = true ->
  send this =
  (true,
   {| _mavlink :=
        mavlink_msg_avesaid_status_send_struct
          (get_channel (_mavlink this))
          (wire_of (sub_latest (_avesaid_status_sub this)))
          (_mavlink this);
      _avesaid_status_sub :=
        {| sub_advertised := sub_advertised (_avesaid_status_sub this);
           sub_latest := sub_latest (_avesaid_status_sub this);
           sub_fresh := false |} |}).
Proof.
  unfold fresh. intros Hfresh. unfold send, update. rewrite Hfresh.
  reflexivity.
Qed.

Lemma send_consumes (this : MavlinkStreamAvesaidStatus) :
  fresh (snd (send this)) = false.
Proof.
  destruct (fresh this) eqn:Hf.
  - now rewrite send_fresh.
  - now rewrite send_stale.
Qed.

Lemma send_n_stale (k : nat) (this : MavlinkStreamAvesaidStatus) :
  fresh this = false -> send_n k this = (repeat false k, this).
Proof.
  intros Hstale. induction k as [|k IH]; simpl.
  - reflexivity.
  - rewrite (send_stale this Hstale), IH. reflexivity.
Qed.

Lemma get_size_keeps (this : MavlinkStreamAvesaidStatus) :
  snd (get_size this) = this.
Proof. unfold get_size, advertised. simpl. apply stream_eta. Qed.

Lemma get_size_value (this : MavlinkStreamAvesaidStatus) :
  0 <= MAVLINK_MSG_ID_AVESAID_STATUS_LEN + MAVLINK_NUM_NON_PAYLOAD_BYTES < 2 ^ 32 ->
  fst (get_size this) =
  if sub_advertised (_avesaid_status_sub this)
  then MAVLINK_MSG_ID_AVESAID_STATUS_LEN + MAVLINK_NUM_NON_PAYLOAD_BYTES
  else 0.
Proof.
  intros Hrange. unfold get_size, advertised, to_unsigned. simpl.
  destruct (sub_advertised _).
  - now apply Z.mod_small.
  - reflexivity.
Qed.

Lemma run_app (evs1 evs2 : list event) (this : MavlinkStreamAvesaidStatus) :
  run (evs1 ++ evs2) this = run evs2 (run evs1 this).
Proof. unfold run. apply fold_left_app. Qed.

Lemma run_cons (e : event) (evs : list event) (this : MavlinkStreamAvesaidStatus) :
  run (e :: evs) this = run evs (step e this).
Proof. reflexivity. Qed.

Lemma publishes_keep_mavlink (rs : list orb.avesaid_status_s)
    (this : MavlinkStreamAvesaidStatus) :
  _mavlink (run (map Publish rs) this) = _mavlink this.
Proof.
  revert this. induction rs as [|r rs IH]; intros this.
  - reflexivity.
  - cbn [map]. rewrite run_cons, IH. reflexivity.
Qed.

(** Publishing a batch of records, oldest first, with nothing in between. *)
Lemma run_publishes (rs : list orb.avesaid_status_s) (r : orb.avesaid_status_s)
    (this : MavlinkStreamAvesaidStatus) :
  run (map Publish (rs ++ [r])) this =
  {| _mavlink := _mavlink this;
     _avesaid_status_sub :=
       {| sub_advertised := true; sub_latest := r; sub_fresh := true |} |}.
Proof.
  rewrite map_app, run_app. cbn.
  now rewrite publishes_keep_mavlink.
Qed.

(** Once advertised, always advertised. *)
Lemma step_advertised (e : event) (this : MavlinkStreamAvesaidStatus) :
  sub_advertised (_avesaid_status_sub this) = true ->
  sub_advertised (_avesaid_status_sub (step e this)) = true.
Proof.
  intros Hadv. destruct e; cbn [step].
  - reflexivity.
  - reflexivity.
  - destruct (fresh this) eqn:Hf.
    + now rewrite send_fresh.
    + now rewrite send_stale.
  - now rewrite get_size_keeps.
  - exact Hadv.
  - exact Hadv.
Qed.

Lemma run_advertised (evs : list event) (this : MavlinkStreamAvesaidStatus) :
  sub_advertised (_avesaid_status_sub this) = true ->
  sub_advertised (_avesaid_status_sub (run evs this)) = true.
Proof.
  revert this. induction evs as [|e evs IH]; intros this Hadv.
  - exact Hadv.
  - rewrite run_cons. apply IH, step_advertised, Hadv.
Qed.

Lemma step_attaches (e : event) (this : MavlinkStreamAvesaidStatus) :
  attaches e = true ->
  sub_advertised (_avesaid_status_sub (step e this)) = true.
Proof. destruct e; simpl; intros H; try discriminate; reflexivity. Qed.

Lemma run_attaches (evs : list event) (this : MavlinkStreamAvesaidStatus) :
  existsb attaches evs = true ->
  sub_advertised (_avesaid_status_sub (run evs this)) = true.
Proof.
  revert this. induction evs as [|e evs IH]; intros this Hex.
  - discriminate.
  - rewrite run_cons. cbn [existsb] in Hex.
    apply orb_true_iff in Hex. destruct Hex as [He | Hrest].
    + apply run_advertised, step_attaches, He.
    + apply IH, Hrest.
Qed.

(** Queries leave the stream as it was. *)
Lemma step_query (e : event) (this : MavlinkStreamAvesaidStatus) :
  is_query e = true -> step e this = this.
Proof.
  destruct e; cbn [step is_query]; intros H;
    try discriminate; try reflexivity.
  apply get_size_keeps.
Qed.

Lemma run_queries (evs : list event) (this : MavlinkStreamAvesaidStatus) :
  forallb is_query evs = true -> run evs this = this.
Proof.
  induction evs as [|e evs IH]; intros Hall.
  - reflexivity.
  - cbn [forallb] in Hall. apply andb_true_iff in Hall.
    destruct Hall as [He Hrest].
    rewrite run_cons, (step_query e this He). apply IH, Hrest.
Qed.

Lemma publish_is_latest (r : orb.avesaid_status_s)
    (this : MavlinkStreamAvesaidStatus) :
  fresh (step (Publish r) this) = true /\
  sub_latest (_avesaid_status_sub (step (Publish r) this)) = r /\
  written (step (Publish r) this) = written this.
Proof. repeat split. Qed.

(** ** The size report *)

(** C1: [get_size()] returns 0 when [advertised()] is false and otherwise
    exactly [MAVLINK_MSG_ID_AVESAID_STATUS_LEN + MAVLINK_NUM_NON_PAYLOAD_BYTES];
    it returns no other value. The sum is taken to fit the [unsigned] return
    type. *)
Theorem get_size_spec (this : MavlinkStreamAvesaidStatus) :
  0 <= MAVLINK_MSG_ID_AVESAID_STATUS_LEN + MAVLINK_NUM_NON_PAYLOAD_BYTES < 2 ^ 32 ->
  fst (get_size this) =
    (if fst (advertised (_avesaid_status_sub this))
     then MAVLINK_MSG_ID_AVESAID_STATUS_LEN + MAVLINK_NUM_NON_PAYLOAD_BYTES
     else 0)
  /\ (fst (get_size this) = 0 \/
      fst (get_size this) =
        MAVLINK_MSG_ID_AVESAID_STATUS_LEN + MAVLINK_NUM_NON_PAYLOAD_BYTES).
Proof.
  intros Hrange. rewrite (get_size_value this Hrange). cbn [advertised fst].
  split; [reflexivity|].
  destruct (sub_advertised _); [right | left]; reflexivity.
Qed.

(** C6: [get_size()] can go from 0 to non-zero, when a publisher attaches,
    and never goes back. From a state where it is non-zero, and after any
    history in which a publisher attached, it is the positive constant
    whatever happens later; any stream whose topic is not advertised reports
    0, and the positive constant as soon as a publisher attaches or
    publishes. The stream itself keeps no latch: in every state the size is
    the constant exactly when [advertised()] answers true, so that it never
    goes back is that [advertised()] never does. *)
Theorem get_size_never_drops (this : MavlinkStreamAvesaidStatus)
    (evs later : list event) :
  0 < wire_size < 2 ^ 32 ->
  (fst (get_size this) <> 0 -> fst (get_size (run evs this)) = wire_size)
  /\ (existsb attaches evs = true ->
      fst (get_size (run (evs ++ later) this)) = wire_size)
  /\ (sub_advertised (_avesaid_status_sub this) = false ->
      fst (get_size this) = 0 /\
      fst (get_size (step Advertise this)) = wire_size /\
      forall r, fst (get_size (step (Publish r) this)) = wire_size)
  /\ (forall after : MavlinkStreamAvesaidStatus,
        fst (get_size after) = wire_size <->
        fst (advertised (_avesaid_status_sub after)) = true).
Proof.
  unfold wire_size. intros Hrange.
  assert (Hr : 0 <= MAVLINK_MSG_ID_AVESAID_STATUS_LEN
                    + MAVLINK_NUM_NON_PAYLOAD_BYTES < 2 ^ 32) by lia.
  split; [|split; [|split]].
  - rewrite (get_size_value this Hr), (get_size_value (run evs this) Hr).
    destruct (sub_advertised (_avesaid_status_sub this)) eqn:Hadv.
    + intros _. now rewrite (run_advertised evs this Hadv).
    + intros Hne. now contradiction Hne.
  - intros Hatt. rewrite run_app, (get_size_value _ Hr).
    now rewrite (run_advertised later _ (run_attaches evs this Hatt)).
  - intros Hadv. split; [|split; [|intros r]];
      rewrite (get_size_value _ Hr).
    + now rewrite Hadv.
    + reflexivity.
    + reflexivity.
  - intros after. rewrite (get_size_value after Hr). cbn [advertised fst].
    destruct (sub_advertised (_avesaid_status_sub after)).
    + split; reflexivity.
    + split; [lia | discriminate].
Qed.

(** ** Sending *)

(** C2: with a fresh value in the subscription, one [send()] returns true,
    writes exactly one message to the stream's channel, and that message
    carries the timestamp and the five flags of the latest published record
    unchanged. *)
Theorem send_emits_latest (this : MavlinkStreamAvesaidStatus) :
  fresh this = true ->
  exists this' msg,
    send this = (true, this') /\
    written this' = written this ++ [(get_channel (_mavlink this), msg)] /\
    mav.timestamp msg =
      orb.timestamp (sub_latest (_avesaid_status_sub this)) /\
    mav.flag_mode_attachment_enabled msg =
      orb.flag_mode_attachment_enabled (sub_latest (_avesaid_status_sub this)) /\
    mav.flag_mode_partial_attachment_enabled msg =
      orb.flag_mode_partial_attachment_enabled
        (sub_latest (_avesaid_status_sub this)) /\
    mav.flag_magnet_enabled msg =
      orb.flag_magnet_enabled (sub_latest (_avesaid_status_sub this)) /\
    mav.flag_height_source_baro_enabled msg =
      orb.flag_height_source_baro_enabled
        (sub_latest (_avesaid_status_sub this)) /\
    mav.flag_height_source_slam_enabled msg =
      orb.flag_height_source_slam_enabled
        (sub_latest (_avesaid_status_sub this)).
Proof.
  intros Hfresh. rewrite (send_fresh this Hfresh).
  eexists. exists (wire_of (sub_latest (_avesaid_status_sub this))).
  split; [reflexivity|]. repeat split.
Qed.

(** C3: with no value newer than the last one retrieved, [send()] returns
    false, writes nothing, and leaves the stream, its subscription included,
    exactly as it was. *)
Theorem send_without_fresh_value (this : MavlinkStreamAvesaidStatus) :
  fresh this = false ->
  send this = (false, this) /\
  written (snd (send this)) = written this /\
  fresh (snd (send this)) = fresh this.
Proof.
  intros Hstale. rewrite (send_stale this Hstale). repeat split.
Qed.

(** C4: last value wins. After [n >= 1] publishes with no [send()] in
    between, the next [send()] returns true and writes one message, the image
    of the last record published; the [k] calls after it return false and
    write nothing, so none of the earlier records reaches the wire. *)
Theorem last_value_wins (this : MavlinkStreamAvesaidStatus)
    (rs : list orb.avesaid_status_s) (k : nat) :
  rs <> [] ->
  exists this',
    send (run (map Publish rs) this) = (true, this') /\
    written this' =
      written this ++ [(get_channel (_mavlink this), wire_of (last rs orb.zero))] /\
    send_n k this' = (repeat false k, this') /\
    written (snd (send_n k this')) =
      written this ++ [(get_channel (_mavlink this), wire_of (last rs orb.zero))].
Proof.
  intros Hne.
  pose proof (app_removelast_last orb.zero Hne) as Hsplit.
  remember (last rs orb.zero) as r eqn:Hr.
  remember (removelast rs) as front eqn:Hfront.
  rewrite Hsplit, run_publishes, send_fresh by reflexivity.
  eexists. split; [reflexivity|]. cbn [_mavlink _avesaid_status_sub
    sub_latest mavlink_msg_avesaid_status_send_struct get_channel].
  split; [reflexivity|].
  rewrite send_n_stale by reflexivity.
  split; reflexivity.
Qed.

(** C5: of two [send()] calls in succession, with no publish between them,
    the second returns false and writes nothing. *)
Theorem send_twice (this : MavlinkStreamAvesaidStatus) :
  send (snd (send this)) = (false, snd (send this)) /\
  fst (send (snd (send this))) = false /\
  written (snd (send (snd (send this)))) = written (snd (send this)).
Proof.
  rewrite (send_stale _ (send_consumes this)). repeat split.
Qed.

(** C7: idempotence of absence. With no fresh value, [n] calls of [send()]
    all return false and the stream after them is the stream before them:
    nothing written, nothing queued, no state grown. *)
Theorem polling_without_publish (n : nat) (this : MavlinkStreamAvesaidStatus) :
  fresh this = false ->
  send_n n this = (repeat false n, this) /\
  written (snd (send_n n this)) = written this.
Proof.
  intros Hstale. rewrite (send_n_stale n this Hstale). split; reflexivity.
Qed.

(** C10: the message struct is value-initialised before the assignments, so
    in whatever [send()] adds to the channel, at most one message, every
    field other than the six assigned ones is zero. *)
Theorem unassigned_fields_zero (this : MavlinkStreamAvesaidStatus) :
  exists added,
    written (snd (send this)) = written this ++ added /\
    (List.length added <= 1)%nat /\
    (List.length added = 1%nat <-> fst (send this) = true) /\
    Forall (fun cm => get_channel (_mavlink this) = fst cm /\
                      List.length (mav.other_fields (snd cm)) = n_other_fields /\
                      other_fields_zero (snd cm)) added.
Proof.
  destruct (fresh this) eqn:Hf.
  - rewrite (send_fresh this Hf). eexists. split; [reflexivity|].
    cbn [List.length fst]. split; [lia|]. split; [tauto|].
    constructor; [|constructor]. cbn [fst snd wire_of mav.other_fields].
    split; [reflexivity|]. split; [apply repeat_length|].
    unfold other_fields_zero. cbn [wire_of mav.other_fields].
    apply Forall_forall. intros v Hin. now apply repeat_spec in Hin.
  - rewrite (send_stale this Hf). exists []. rewrite app_nil_r.
    cbn [List.length fst]. split; [reflexivity|]. split; [lia|].
    split; [split; discriminate | constructor].
Qed.

(** ** Identity and queries *)

(** C8: the name and the id never change: in every state, after any
    history, [get_name()] is ["AVESAID_STATUS"], which is
    [get_name_static()], and [get_id()] is [MAVLINK_MSG_ID_AVESAID_STATUS],
    which is [get_id_static()]. The id is taken to fit the [uint16_t] return
    type. *)
Theorem identity_is_constant (this : MavlinkStreamAvesaidStatus)
    (evs : list event) :
  0 <= MAVLINK_MSG_ID_AVESAID_STATUS < 2 ^ 16 ->
  get_name (run evs this) = "AVESAID_STATUS"%string /\
  get_name (run evs this) = get_name_static /\
  get_id (run evs this) = MAVLINK_MSG_ID_AVESAID_STATUS /\
  get_id (run evs this) = get_id_static.
Proof.
  intros Hrange. unfold get_name, get_id, get_id_static, to_uint16.
  rewrite Z.mod_small by exact Hrange. repeat split.
Qed.

(** C9: [get_size()], [get_name()] and [get_id()] only observe. Any number
    of them, in any order, leaves the stream as it was: nothing is written,
    the freshness of the subscription is kept, and the next [send()] does
    what it would have done without them. *)
Theorem queries_are_pure (this : MavlinkStreamAvesaidStatus)
    (qs : list event) :
  forallb is_query qs = true ->
  run qs this = this /\
  written (run qs this) = written this /\
  fresh (run qs this) = fresh this /\
  send (run qs this) = send this.
Proof.
  intros Hqs. rewrite (run_queries qs this Hqs). repeat split.
Qed.

(** ** Histories *)

Lemma step_channel (e : event) (this : MavlinkStreamAvesaidStatus) :
  get_channel (_mavlink (step e this)) = get_channel (_mavlink this).
Proof.
  destruct e; cbn [step]; try reflexivity.
  destruct (fresh this) eqn:Hf.
  - now rewrite send_fresh.
  - now rewrite send_stale.
Qed.

Lemma run_channel (evs : list event) (this : MavlinkStreamAvesaidStatus) :
  get_channel (_mavlink (run evs this)) = get_channel (_mavlink this).
Proof.
  revert this. induction evs as [|e evs IH]; intros this.
  - reflexivity.
  - now rewrite run_cons, IH, step_channel.
Qed.

Lemma on_wire_step (e : event) (this : MavlinkStreamAvesaidStatus)
    (rs : list orb.avesaid_status_s) :
  on_wire (step e this) rs = on_wire this rs.
Proof. unfold on_wire. now rewrite step_channel. Qed.

Lemma send_pending (this : MavlinkStreamAvesaidStatus) :
  pending (snd (send this)) = None /\
  written (snd (send this)) =
    written this ++
    on_wire this (match pending this with Some r => [r] | None => [] end).
Proof.
  unfold pending. rewrite send_consumes. split; [reflexivity|].
  destruct (fresh this) eqn:Hf.
  - now rewrite send_fresh.
  - rewrite send_stale by exact Hf. cbn [snd on_wire map].
    now rewrite app_nil_r.
Qed.

(** What a history writes, event by event. *)
Lemma run_written (evs : list event) (this : MavlinkStreamAvesaidStatus) :
  written (run evs this) =
  written this ++ on_wire this (delivered evs (pending this)).
Proof.
  revert this. induction evs as [|e evs IH]; intros this.
  - cbn. now rewrite app_nil_r.
  - rewrite run_cons, IH, on_wire_step.
    destruct e; cbn [delivered].
    + reflexivity.
    + reflexivity.
    + change (step CallSend this) with (snd (send this)).
      destruct (send_pending this) as [Hp Hw]. rewrite Hp, Hw.
      destruct (pending this); cbn [on_wire map].
      * now rewrite <- app_assoc.
      * now rewrite app_nil_r.
    + cbn [step]. now rewrite get_size_keeps.
    + reflexivity.
    + reflexivity.
Qed.

Lemma delivered_count_publish (evs : list event)
    (pend : option orb.avesaid_status_s) :
  (List.length (delivered evs pend) <=
   List.length (filter is_publish evs)
   + match pend with Some _ => 1 | None => 0 end)%nat.
Proof.
  revert pend. induction evs as [|e evs IH]; intros pend.
  - cbn. lia.
  - destruct e; cbn [delivered filter is_publish List.length];
      try apply IH.
    + specialize (IH (Some r)). cbn in IH. lia.
    + destruct pend; cbn [List.length];
        specialize (IH None); cbn in IH; lia.
Qed.

Lemma delivered_count_send (evs : list event)
    (pend : option orb.avesaid_status_s) :
  (List.length (delivered evs pend) <= List.length (filter is_send evs))%nat.
Proof.
  revert pend. induction evs as [|e evs IH]; intros pend.
  - cbn. lia.
  - destruct e; cbn [delivered filter is_send List.length];
      try apply IH.
    destruct pend; cbn [List.length]; specialize (IH None); lia.
Qed.

Lemma delivered_in (evs : list event) (pend : option orb.avesaid_status_s)
    (r : orb.avesaid_status_s) :
  In r (delivered evs pend) -> pend = Some r \/ In r (published evs).
Proof.
  revert pend. induction evs as [|e evs IH]; intros pend Hin.
  - contradiction.
  - unfold published in *. destruct e; cbn [delivered flat_map] in *.
    + now apply IH.
    + destruct (IH _ Hin) as [Hp | Hrest].
      * injection Hp as ->. right. now left.
      * right. apply in_or_app. now right.
    + destruct pend as [r0|].
      * destruct Hin as [-> | Hin]; [now left|].
        destruct (IH _ Hin) as [Hp | Hrest]; [discriminate | now right].
      * destruct (IH _ Hin) as [Hp | Hrest]; [discriminate | now right].
    + now apply IH.
    + now apply IH.
    + now apply IH.
Qed.

Lemma delivered_lockstep (rs : list orb.avesaid_status_s)
    (pend : option orb.avesaid_status_s) :
  delivered (lockstep rs) pend = rs.
Proof.
  revert pend. induction rs as [|r rs IH]; intros pend.
  - reflexivity.
  - cbn [lockstep flat_map app delivered]. f_equal. apply IH.
Qed.

Lemma delivered_no_publish (evs : list event) :
  existsb is_publish evs = false -> delivered evs None = [].
Proof.
  induction evs as [|e evs IH]; intros Hno.
  - reflexivity.
  - cbn [existsb] in Hno. apply orb_false_iff in Hno.
    destruct Hno as [He Hrest].
    destruct e; cbn [delivered]; try discriminate; now apply IH.
Qed.

Lemma step_keeps_stale (e : event) (this : MavlinkStreamAvesaidStatus) :
  is_publish e = false -> fresh this = false -> fresh (step e this) = false.
Proof.
  intros He Hstale. destruct e; cbn [step]; try discriminate.
  - exact Hstale.
  - apply send_consumes.
  - now rewrite get_size_keeps.
  - exact Hstale.
  - exact Hstale.
Qed.

Lemma step_keeps_advertised_flag (e : event)
    (this : MavlinkStreamAvesaidStatus) :
  attaches e = false ->
  sub_advertised (_avesaid_status_sub (step e this)) =
  sub_advertised (_avesaid_status_sub this).
Proof.
  intros He. destruct e; cbn [step]; try discriminate; try reflexivity.
  destruct (fresh this) eqn:Hf.
  - now rewrite send_fresh.
  - now rewrite send_stale.
Qed.

(** X1: what a history puts on the wire. The messages written before stay
    where they are; after them come, on the stream's own channel and in call
    order, the images of the records each [send()] call found pending; the
    channel number is the one the stream was built with. *)
Theorem history_on_the_wire (evs : list event)
    (this : MavlinkStreamAvesaidStatus) :
  written (run evs this) =
    written this ++ on_wire this (delivered evs (pending this)) /\
  get_channel (_mavlink (run evs this)) = get_channel (_mavlink this).
Proof. split; [apply run_written | apply run_channel]. Qed.

(** X2: at most once. A history writes no more messages than it has
    publishes (one more if a value was pending at its start), and no more
    than it has [send()] calls. *)
Theorem at_most_once (evs : list event) (this : MavlinkStreamAvesaidStatus) :
  (List.length (written (run evs this)) <=
   List.length (written this) + List.length (filter is_publish evs)
   + (if fresh this then 1 else 0))%nat /\
  (List.length (written (run evs this)) <=
   List.length (written this) + List.length (filter is_send evs))%nat.
Proof.
  rewrite run_written, length_app. unfold on_wire. rewrite length_map.
  pose proof (delivered_count_publish evs (pending this)) as Hp.
  pose proof (delivered_count_send evs (pending this)) as Hs.
  unfold pending in *. destruct (fresh this); lia.
Qed.

(** X3: nothing invented. Starting with nothing pending, every message a
    history writes is on the stream's channel and is the image of a record
    published in that history. *)
Theorem nothing_invented (evs : list event)
    (this : MavlinkStreamAvesaidStatus) :
  fresh this = false ->
  exists added,
    written (run evs this) = written this ++ added /\
    Forall (fun cm =>
              fst cm = get_channel (_mavlink this) /\
              exists r, In r (published evs) /\ snd cm = wire_of r) added.
Proof.
  intros Hstale. eexists. split; [apply run_written|].
  unfold on_wire, pending. rewrite Hstale.
  apply Forall_forall. intros cm Hin.
  apply in_map_iff in Hin. destruct Hin as (r & <- & Hr).
  split; [reflexivity|]. exists r. split; [|reflexivity].
  destruct (delivered_in _ _ _ Hr) as [Hp | Hpub];
    [discriminate | exact Hpub].
Qed.

(** X4: nothing lost in lockstep. When [send()] is called once after every
    publish, every call returns true and the records reach the wire one for
    one, in the order they were published. *)
Theorem lockstep_delivers_all (rs : list orb.avesaid_status_s)
    (this : MavlinkStreamAvesaidStatus) :
  written (run (lockstep rs) this) = written this ++ on_wire this rs /\
  send_results (lockstep rs) this = repeat true (List.length rs).
Proof.
  split.
  - now rewrite run_written, delivered_lockstep.
  - revert this. induction rs as [|r rs IH]; intros this.
    + reflexivity.
    + cbn [lockstep flat_map app send_results List.length repeat].
      rewrite send_fresh by reflexivity. cbn [fst snd].
      f_equal. apply IH.
Qed.

(** X5: silent without a publish. With nothing pending, a history without
    publishes, whatever else it holds (a publisher attaching, queries, any
    number of [send()] calls), writes nothing, and each of its [send()] calls
    returns false. *)
Theorem silent_without_publish (evs : list event)
    (this : MavlinkStreamAvesaidStatus) :
  fresh this = false ->
  existsb is_publish evs = false ->
  written (run evs this) = written this /\
  fresh (run evs this) = false /\
  send_results evs this = repeat false (List.length (filter is_send evs)).
Proof.
  intros Hstale Hno. split; [|revert this Hstale Hno;
    induction evs as [|e evs IH]; intros this Hstale Hno].
  - rewrite run_written. unfold pending. rewrite Hstale.
    rewrite (delivered_no_publish evs Hno). cbn. apply app_nil_r.
  - split; [exact Hstale | reflexivity].
  - cbn [existsb] in Hno. apply orb_false_iff in Hno.
    destruct Hno as [He Hrest].
    pose proof (step_keeps_stale e this He Hstale) as Hnext.
    destruct (IH (step e this) Hnext Hrest) as [Hf Hres].
    rewrite run_cons. split; [exact Hf|].
    destruct e; cbn [send_results filter is_send List.length repeat];
      try exact Hres; try discriminate.
    rewrite (send_stale this Hstale) in *. cbn [fst snd].
    f_equal. cbn [step] in Hres. rewrite (send_stale this Hstale) in Hres.
    exact Hres.
Qed.

(** X6: only a publisher changes the size. Over a history in which no
    publisher attaches or publishes, [get_size()] reports at the end what it
    reported at the start; [send()] in particular never changes it. *)
Theorem get_size_frame (evs : list event)
    (this : MavlinkStreamAvesaidStatus) :
  existsb attaches evs = false ->
  fst (get_size (run evs this)) = fst (get_size this).
Proof.
  revert this. induction evs as [|e evs IH]; intros this Hno.
  - reflexivity.
  - cbn [existsb] in Hno. apply orb_false_iff in Hno.
    destruct Hno as [He Hrest].
    rewrite run_cons, (IH _ Hrest).
    unfold get_size, advertised. cbn [fst].
    now rewrite (step_keeps_advertised_flag e this He).
Qed.

(** X7: the return value tells the truth. Over any history the number of
    messages written is the number of [send()] calls that returned true. *)
Theorem true_results_count_writes (evs : list event)
    (this : MavlinkStreamAvesaidStatus) :
  List.length (written (run evs this)) =
  (List.length (written this)
   + count_occ bool_dec (send_results evs this) true)%nat.
Proof.
  revert this. induction evs as [|e evs IH]; intros this.
  - cbn. lia.
  - rewrite run_cons, IH.
    destruct e; cbn [send_results]; try reflexivity.
    cbn [step]. destruct (fresh this) eqn:Hf.
    + rewrite (send_fresh this Hf). cbn [fst snd written _mavlink sent
        mavlink_msg_avesaid_status_send_struct].
      rewrite length_app, count_occ_cons_eq by reflexivity.
      cbn [List.length]. unfold written. lia.
    + rewrite (send_stale this Hf). cbn [fst snd].
      rewrite count_occ_cons_neq by discriminate. reflexivity.
Qed.

Lemma delivered_without_advertise (evs : list event)
    (pend : option orb.avesaid_status_s) :
  delivered (without is_advertise evs) pend = delivered evs pend.
Proof.
  unfold without. revert pend. induction evs as [|e evs IH]; intros pend.
  - reflexivity.
  - destruct e; cbn [filter is_advertise negb delivered];
      try apply IH.
    destruct pend; now rewrite IH.
Qed.

(** X8: queries can be dropped. Taking every [get_size()], [get_name()] and
    [get_id()] call out of a history, wherever they stand, changes neither
    the stream it ends in nor the results of its [send()] calls. *)
Theorem queries_can_be_dropped (evs : list event)
    (this : MavlinkStreamAvesaidStatus) :
  run (without is_query evs) this = run evs this /\
  send_results (without is_query evs) this = send_results evs this.
Proof.
  unfold without. revert this. induction evs as [|e evs IH]; intros this.
  - split; reflexivity.
  - destruct (is_query e) eqn:Hq.
    + cbn [filter]. rewrite Hq. cbn [negb].
      rewrite run_cons, (step_query e this Hq).
      destruct (IH this) as [Hrun Hres].
      split; [exact Hrun|]. rewrite Hres.
      destruct e; try discriminate; cbn [send_results];
        now rewrite (step_query _ this Hq).
    + cbn [filter]. rewrite Hq. cbn [negb]. rewrite !run_cons.
      destruct (IH (step e this)) as [Hrun Hres].
      split; [exact Hrun|].
      destruct e; try discriminate; cbn [send_results]; try exact Hres.
      f_equal. exact (proj2 (IH (snd (send this)))).
Qed.

Lemma send_after_advertise (this : MavlinkStreamAvesaidStatus) :
  fst (send (step Advertise this)) = fst (send this) /\
  snd (send (step Advertise this)) = step Advertise (snd (send this)).
Proof.
  destruct (fresh this) eqn:Hf.
  - rewrite (send_fresh this Hf), (send_fresh (step Advertise this) Hf).
    split; reflexivity.
  - rewrite (send_stale this Hf), (send_stale (step Advertise this) Hf).
    split; reflexivity.
Qed.

Lemma step_after_advertise (e : event) (this : MavlinkStreamAvesaidStatus) :
  step e (step Advertise this) = step Advertise (step e this).
Proof.
  destruct e; try reflexivity.
  exact (proj2 (send_after_advertise this)).
Qed.

Lemma send_results_after_advertise (evs : list event)
    (this : MavlinkStreamAvesaidStatus) :
  send_results evs (step Advertise this) = send_results evs this.
Proof.
  revert this. induction evs as [|e evs IH]; intros this.
  - reflexivity.
  - destruct e; cbn [send_results].
    + now rewrite !IH.
    + reflexivity.
    + destruct (send_after_advertise this) as [Hfst Hsnd].
      now rewrite Hfst, Hsnd, IH.
    + now rewrite step_after_advertise, IH.
    + now rewrite step_after_advertise, IH.
    + now rewrite step_after_advertise, IH.
Qed.

(** X9: sending is not gated on advertisement. [send()] never asks
    [advertised()]: taking the events in which a publisher merely attaches
    out of a history changes neither what the history writes nor what its
    [send()] calls return. *)
Theorem advertise_does_not_gate_send (evs : list event)
    (this : MavlinkStreamAvesaidStatus) :
  written (run (without is_advertise evs) this) = written (run evs this) /\
  send_results (without is_advertise evs) this = send_results evs this.
Proof.
  split.
  - now rewrite !run_written, delivered_without_advertise.
  - unfold without. revert this.
    induction evs as [|e evs IH]; intros this; [reflexivity|].
    destruct e; cbn [filter is_advertise negb send_results];
      rewrite ?IH; try reflexivity.
    symmetry. apply send_results_after_advertise.
Qed.

End Stream.

(** * The scenarios of the specification, run on the model *)

Import Scenario.

(** C1 at the example constants: an unadvertised stream reports 0, an
    advertised one 13 + 12. *)
Lemma get_size_spec_witness :
  0 <= msg_len + non_payload < 2 ^ 32 /\
  fst (get_size msg_len non_payload (new_instance link0 no_publisher)) = 0 /\
  fst (get_size msg_len non_payload
         (step msg_id msg_len non_payload 0 Advertise (new_instance link0 no_publisher))) = 25.
Proof.
  assert (Hrange : 0 <= msg_len + non_payload < 2 ^ 32)
    by (unfold msg_len, non_payload; lia).
  split; [exact Hrange|]. split.
  - exact (proj1 (get_size_spec msg_len non_payload (new_instance link0 no_publisher) Hrange)).
  - exact (proj1 (get_size_spec msg_len non_payload
                    (step msg_id msg_len non_payload 0 Advertise
                       (new_instance link0 no_publisher)) Hrange)).
Defined.

(** C2 at the second scenario: a publisher attaches and publishes the record
    with flags true, false, true, false, true; the first [send()] writes
    them in that order. *)
Lemma send_emits_latest_witness :
  let this :=
    run msg_id msg_len non_payload 0 [Advertise; Publish tftft]
      (new_instance link0 no_publisher) in
  fresh this = true /\
  exists this' msg,
    send 0 this = (true, this') /\
    written this' = [(0, msg)] /\
    mav.timestamp msg = 1000 /\
    mav.flag_mode_attachment_enabled msg = true /\
    mav.flag_mode_partial_attachment_enabled msg = false /\
    mav.flag_magnet_enabled msg = true /\
    mav.flag_height_source_baro_enabled msg = false /\
    mav.flag_height_source_slam_enabled msg = true.
Proof.
  intros this. split; [reflexivity|].
  exact (send_emits_latest 0 this eq_refl).
Defined.

(** C3 at a stream nobody has published to. *)
Lemma send_without_fresh_value_witness :
  fresh (new_instance link0 no_publisher) = false /\
  send 0 (new_instance link0 no_publisher) = (false, new_instance link0 no_publisher) /\
  written (snd (send 0 (new_instance link0 no_publisher))) = [] /\
  fresh (snd (send 0 (new_instance link0 no_publisher))) = false.
Proof.
  split; [reflexivity|].
  exact (send_without_fresh_value 0 (new_instance link0 no_publisher) eq_refl).
Defined.

(** C4 at the third scenario: five publishes, then four calls of [send()];
    only the first returns true, and it carries the fifth record. *)
Lemma last_value_wins_witness :
  five <> [] /\
  exists this',
    send 0 (run msg_id msg_len non_payload 0 (map Publish five)
              (new_instance link0 no_publisher)) = (true, this') /\
    written this' = [(0, wire_of 0 (record 5 false false true true false))] /\
    send_n 0 3 this' = ([false; false; false], this') /\
    written (snd (send_n 0 3 this')) =
      [(0, wire_of 0 (record 5 false false true true false))].
Proof.
  assert (Hne : five <> []) by discriminate.
  split; [exact Hne|].
  exact (last_value_wins msg_id msg_len non_payload 0
           (new_instance link0 no_publisher) five 3 Hne).
Defined.

(** C6 at the example constants: 0 before a publisher attaches, 25 after,
    whatever follows. *)
Lemma get_size_never_drops_witness :
  0 < wire_size msg_len non_payload < 2 ^ 32 /\
  fst (get_size msg_len non_payload (new_instance link0 no_publisher)) = 0 /\
  fst (get_size msg_len non_payload
         (run msg_id msg_len non_payload 0
            ([CallSend; Advertise] ++
             [CallSend; Publish tftft; CallGetSize; CallSend; CallSend])
            (new_instance link0 no_publisher))) = 25.
Proof.
  assert (Hrange : 0 < wire_size msg_len non_payload < 2 ^ 32)
    by (unfold wire_size, msg_len, non_payload; lia).
  split; [exact Hrange|].
  destruct (get_size_never_drops msg_id msg_len non_payload 0
              (new_instance link0 no_publisher) [CallSend; Advertise]
              [CallSend; Publish tftft; CallGetSize; CallSend; CallSend]
              Hrange) as (_ & Hlater & Hfirst & _).
  split.
  - exact (proj1 (Hfirst eq_refl)).
  - exact (Hlater eq_refl).
Defined.

(** C7 at the first scenario: no publisher ever attaches, and a thousand
    polls all return false and change nothing. *)
Lemma polling_without_publish_witness :
  fresh (new_instance link0 no_publisher) = false /\
  send_n 0 1000 (new_instance link0 no_publisher) = (repeat false 1000, new_instance link0 no_publisher) /\
  written (snd (send_n 0 1000 (new_instance link0 no_publisher))) = [].
Proof.
  split; [reflexivity|].
  exact (polling_without_publish 0 1000 (new_instance link0 no_publisher) eq_refl).
Defined.

(** C8 at the example id, after a history of every kind of event. *)
Lemma identity_is_constant_witness :
  let this :=
    run msg_id msg_len non_payload 0
      [CallGetId; Advertise; Publish tftft; CallSend; CallGetSize; CallGetName]
      (new_instance link0 no_publisher) in
  0 <= msg_id < 2 ^ 16 /\
  get_name this = "AVESAID_STATUS"%string /\
  get_name this = get_name_static /\
  get_id msg_id this = 229 /\
  get_id msg_id this = get_id_static msg_id.
Proof.
  intros this.
  assert (Hrange : 0 <= msg_id < 2 ^ 16) by (unfold msg_id; lia).
  split; [exact Hrange|].
  exact (identity_is_constant msg_id msg_len non_payload 0
           (new_instance link0 no_publisher)
           [CallGetId; Advertise; Publish tftft; CallSend; CallGetSize;
            CallGetName]
           Hrange).
Defined.

(** C9 at a stream with a fresh value: four queries do not consume it. *)
Lemma queries_are_pure_witness :
  let this :=
    run msg_id msg_len non_payload 0 [Publish tftft] (new_instance link0 no_publisher) in
  let qs := [CallGetSize; CallGetName; CallGetId; CallGetSize] in
  forallb is_query qs = true /\
  run msg_id msg_len non_payload 0 qs this = this /\
  written (run msg_id msg_len non_payload 0 qs this) = [] /\
  fresh (run msg_id msg_len non_payload 0 qs this) = true /\
  send 0 (run msg_id msg_len non_payload 0 qs this) = send 0 this.
Proof.
  intros this qs. split; [reflexivity|].
  exact (queries_are_pure msg_id msg_len non_payload 0 this qs eq_refl).
Defined.

(** The second scenario by evaluation: the first [send()] returns true and
    writes the record's image, the second returns false and writes nothing
    more. *)
Example scenario_publish_then_send_twice :
  let this :=
    run msg_id msg_len non_payload 2 [Advertise; Publish tftft]
      (new_instance link0 no_publisher) in
  let '(b1, this1) := send 2 this in
  let '(b2, this2) := send 2 this1 in
  b1 = true /\ b2 = false /\
  written this1 =
    [(0, {| mav.timestamp := 1000;
            mav.flag_mode_attachment_enabled := true;
            mav.flag_mode_partial_attachment_enabled := false;
            mav.flag_magnet_enabled := true;
            mav.flag_height_source_baro_enabled := false;
            mav.flag_height_source_slam_enabled := true;
            mav.other_fields := [0; 0] |})] /\
  written this2 = written this1.
Proof. vm_compute. repeat split. Qed.

(** The first scenario by evaluation: a thousand polls of the size and of
    [send()] on a topic without publisher. *)
Example scenario_no_publisher :
  let this := new_instance link0 no_publisher in
  let polls := List.concat (repeat [CallGetSize; CallSend] 1000) in
  fst (get_size msg_len non_payload
         (run msg_id msg_len non_payload 0 polls this)) = 0 /\
  run msg_id msg_len non_payload 0 polls this = this /\
  fst (send_n 0 1000 this) = repeat false 1000.
Proof. vm_compute. repeat split. Qed.

(** * Histories at concrete inputs *)

(** X3 on a new stream: three publishes polled at different moments; every
    message written is the image of one of the three. *)
Lemma nothing_invented_witness :
  let evs :=
    [Advertise; Publish (record 1 true true true true true); Publish tftft;
     CallSend; CallGetSize; CallSend;
     Publish (record 5 false false true true false); CallSend] in
  fresh (new_instance link0 no_publisher) = false /\
  exists added,
    written (run msg_id msg_len non_payload 0 evs (new_instance link0 no_publisher)) =
      [] ++ added /\
    Forall (fun cm =>
              fst cm = 0 /\
              exists r, In r (published evs) /\ snd cm = wire_of 0 r) added.
Proof.
  intros evs. split; [reflexivity|].
  exact (nothing_invented msg_id msg_len non_payload 0 evs
           (new_instance link0 no_publisher) eq_refl).
Defined.

(** X5 on a new stream: a publisher attaches but never publishes; the three
    [send()] calls return false and nothing is written. *)
Lemma silent_without_publish_witness :
  let evs :=
    [CallSend; Advertise; CallGetSize; CallSend; CallGetId; CallSend] in
  fresh (new_instance link0 no_publisher) = false /\
  existsb is_publish evs = false /\
  written (run msg_id msg_len non_payload 0 evs (new_instance link0 no_publisher)) = [] /\
  fresh (run msg_id msg_len non_payload 0 evs (new_instance link0 no_publisher)) = false /\
  send_results msg_id msg_len non_payload 0 evs (new_instance link0 no_publisher) =
    [false; false; false].
Proof.
  intros evs. split; [reflexivity|]. split; [reflexivity|].
  exact (silent_without_publish msg_id msg_len non_payload 0 evs
           (new_instance link0 no_publisher) eq_refl eq_refl).
Defined.

(** X6 on a stream with a published record: sends and queries leave the
    reported size at 25. *)
Lemma get_size_frame_witness :
  let this :=
    run msg_id msg_len non_payload 0 [Publish tftft] (new_instance link0 no_publisher) in
  let evs := [CallSend; CallGetSize; CallSend; CallGetName] in
  existsb attaches evs = false /\
  fst (get_size msg_len non_payload
         (run msg_id msg_len non_payload 0 evs this)) =
  fst (get_size msg_len non_payload this).
Proof.
  intros this evs. split; [reflexivity|].
  exact (get_size_frame msg_id msg_len non_payload 0 evs this eq_refl).
Defined.

(** A history by evaluation: of three records, the second is overwritten
    before any poll and never reaches the wire; the two calls that find
    nothing new return false. *)
Example scenario_mixed_history :
  let r1 := record 1 true true true true true in
  let r2 := record 2 false true false true false in
  let r3 := record 3 true true false false false in
  let evs :=
    [CallSend; Publish r1; CallSend; Publish r2; CallGetSize; Publish r3;
     CallSend; CallSend] in
  let this := new_instance link0 no_publisher in
  written (run msg_id msg_len non_payload 0 evs this) =
    [(0, wire_of 0 r1); (0, wire_of 0 r3)] /\
  send_results msg_id msg_len non_payload 0 evs this =
    [false; true; true; false] /\
  delivered evs (pending this) = [r1; r3].
Proof. vm_compute. repeat split. Qed.

(** A stream built late, by evaluation: the topic is already advertised and
    holds a record nobody has read, so the new stream reports its size at
    once and its first [send()] writes that record. *)
Example scenario_late_subscriber :
  let this := new_instance link0 (publish tftft no_publisher) in
  fst (get_size msg_len non_payload this) = 25 /\
  fst (send 0 this) = true /\
  written (snd (send 0 this)) = [(0, wire_of 0 tftft)] /\
  fst (send 0 (snd (send 0 this))) = false.
Proof. vm_compute. repeat split. Qed.
